(** * The chat endpoint ([pages/api/chat.js]) and its collaborators

    A shallow embedding of the request handler of the chat API route, of
    [saveChatToFirestore] ([utils/firestoreUtils.js]) and of the
    [verifyIdToken] wrapper ([utils/firebaseAdmin.js]).

    The handler is asynchronous JavaScript that talks to four hosted
    services.  Every [await] in it is sequential, so one execution is a
    straight-line program over
    - the two shared stores it can change (the rate store behind
      [rateLimiter.limit] and the Firestore collection behind [addDoc]),
    - the exceptions that any step may raise, and
    - the calls it makes, kept in order as a list of events.
    The hosted services themselves are not part of the repository; they
    enter the model as the fields of an environment record.

    The second part covers what surrounds the endpoint: the private key
    handed to the Admin SDK ([utils/firebaseAdmin.js]) and [sendMessage]
    of the chat page ([components/ChatInterface.js]), the caller of the
    endpoint. *)

From Stdlib Require Import String Ascii List ZArith Bool Lia.
Import ListNotations.
Open Scope string_scope.

Set Implicit Arguments.
Set Warnings "-register-all".

(** ** JavaScript values *)

(** The values that reach the handler: the parsed request body, the parsed
    upstream answer and the fields of the stored document.  A number keeps
    its literal text, no arithmetic is done on it. *)
Inductive JsVal : Type :=
| JUndefined
| JNull
| JBool (b : bool)
| JNum (literal : string)
| JStr (s : string)
| JArr (items : list JsVal)
| JObj (props : list (string * JsVal)).

(** What a [throw] or a rejected promise carries. *)
Inductive JsError : Type :=
| TypeError (msg : string)
| Rejected (reason : string).

Inductive Result (A : Type) : Type :=
| Ok (a : A)
| Throw (e : JsError).
Arguments Ok {A} a.
Arguments Throw {A} e.

Fixpoint lookup_prop (k : string) (props : list (string * JsVal)) : JsVal :=
  match props with
  | [] => JUndefined
  | (k', v) :: rest => if String.eqb k k' then v else lookup_prop k rest
  end.

(** [v.k] for a key that no built-in prototype defines (the handler reads
    only [message] and [answer]): reading a property of [null] or
    [undefined] throws, a primitive or an array has no such property. *)
Definition get_prop (v : JsVal) (k : string) : Result JsVal :=
  match v with
  | JUndefined =>
      Throw (TypeError ("Cannot read properties of undefined (reading '" ++ k ++ "')"))
  | JNull =>
      Throw (TypeError ("Cannot read properties of null (reading '" ++ k ++ "')"))
  | JObj props => Ok (lookup_prop k props)
  | _ => Ok JUndefined
  end.

(** [const { k } = v]: destructuring throws on [null] and [undefined] and
    otherwise reads the property. *)
Definition destructure (v : JsVal) (k : string) : Result JsVal :=
  match v with
  | JUndefined =>
      Throw (TypeError ("Cannot destructure property '" ++ k ++ "' of 'undefined'"))
  | JNull =>
      Throw (TypeError ("Cannot destructure property '" ++ k ++ "' of 'null'"))
  | JObj props => Ok (lookup_prop k props)
  | _ => Ok JUndefined
  end.

(** ** [String.prototype.split] with a non-empty separator *)

(** Scans [s] from the left; [skip] counts the characters of a separator
    occurrence still to be dropped, [cur] is the piece being collected. *)
Fixpoint split_go (sep s : string) (skip : nat) (cur : string) {struct s}
  : list string :=
  match s with
  | EmptyString => [cur]
  | String c s' =>
      match skip with
      | S k => split_go sep s' k cur
      | O =>
          if String.prefix sep s
          then cur :: split_go sep s' (String.length sep - 1) ""
          else split_go sep s' 0 (cur ++ String c "")
      end
  end.

Definition split (s sep : string) : list string := split_go sep s 0 "".

(** [authorization?.split('Bearer ')[1]]: the optional chain gives
    [undefined] for an absent header, and so does index 1 of a one-piece
    split. *)
Definition bearer_token (authorization : option string) : option string :=
  match authorization with
  | None => None
  | Some a => nth_error (split a "Bearer ") 1
  end.

(** ** Requests, collaborator data and events *)

Record Headers : Type := { authorization : option string }.

Record Request : Type := {
  method : string;
  headers : Headers;
  body : JsVal
}.

(** The claims of a verified ID token; the handler reads [uid]. *)
Record DecodedIdToken : Type := { uid : string }.

(** The answer of [rateLimiter.limit]. *)
Record RatelimitResponse : Type := {
  success : bool;
  remaining : Z
}.

Record FetchInit : Type := {
  init_method : string;
  init_headers : list (string * string);
  init_body : string
}.

(** A resolved [fetch]: the HTTP status and what [.json()] gives. *)
Record FetchResponse : Type := {
  status : Z;
  json : Result JsVal
}.

Definition ok (r : FetchResponse) : bool :=
  (200 <=? status r)%Z && (status r <=? 299)%Z.

Inductive FieldValue : Type := serverTimestamp.

(** The document [saveChatToFirestore] hands to [addDoc]. *)
Record ChatDoc : Type := {
  userId : JsVal;
  message : JsVal;
  response : JsVal;
  timestamp : FieldValue
}.

Inductive Event : Type :=
| EvVerify (token : option string)
| EvLimit (identifier : string)
| EvFetch (url : string) (init : FetchInit)
| EvJson
| EvAddDoc (coll : string) (doc : ChatDoc)
| EvLog (msg : string) (err : JsError)
| EvRespond (code : Z) (payload : JsVal).

Definition is_verify (e : Event) : bool :=
  match e with EvVerify _ => true | _ => false end.
Definition is_limit (e : Event) : bool :=
  match e with EvLimit _ => true | _ => false end.
Definition is_relay (e : Event) : bool :=
  match e with EvFetch _ _ => true | EvJson => true | _ => false end.
Definition is_fetch (e : Event) : bool :=
  match e with EvFetch _ _ => true | _ => false end.
Definition is_record (e : Event) : bool :=
  match e with EvAddDoc _ _ => true | _ => false end.
Definition is_respond (e : Event) : bool :=
  match e with EvRespond _ _ => true | _ => false end.

Definition count (p : Event -> bool) (t : list Event) : nat :=
  List.length (filter p t).

(** The responses sent, in order. *)
Fixpoint responses (t : list Event) : list (Z * JsVal) :=
  match t with
  | [] => []
  | EvRespond c b :: t' => (c, b) :: responses t'
  | _ :: t' => responses t'
  end.

(** ** The effect monad *)

(** The two stores a request can change.  [RateState] is whatever the
    rate limiter keeps behind its Redis connection; [chats] is the
    Firestore data, a list of (collection, document) in write order. *)
Record World (RateState : Type) : Type := {
  rate : RateState;
  chats : list (string * ChatDoc)
}.

(** The hosted services and the runtime, as one execution sees them. *)
Record Env (RateState : Type) : Type := {
  (* admin.auth().verifyIdToken *)
  admin_verifyIdToken : option string -> Result DecodedIdToken;
  (* rateLimiter.limit, a transition of the rate store *)
  limit : RateState -> string -> Result RatelimitResponse * RateState;
  (* the global fetch *)
  fetch : string -> FetchInit -> Result FetchResponse;
  (* why Firestore refuses a write, if it does *)
  addDoc_fault : list (string * ChatDoc) -> string -> ChatDoc -> option JsError;
  JSON_stringify : JsVal -> string;
  (* process.env.DIFY_API_KEY *)
  DIFY_API_KEY : option string
}.

Section Pipeline.

Variable RateState : Type.
Variable E : Env RateState.

Local Abbreviation W := (World RateState).

(** A computation returns or throws, leaves a world behind and lists the
    events it caused.  What happened before a throw stays. *)
Definition M (A : Type) : Type := W -> Result A * W * list Event.

Definition ret {A : Type} (a : A) : M A := fun w => (Ok a, w, []).

Definition lift {A : Type} (r : Result A) : M A := fun w => (r, w, []).

Definition emit (e : Event) : M unit := fun w => (Ok tt, w, [e]).

Definition bind {A B : Type} (m : M A) (k : A -> M B) : M B :=
  fun w =>
    match m w with
    | (Ok a, w1, t1) =>
        match k a w1 with (r, w2, t2) => (r, w2, (t1 ++ t2)%list) end
    | (Throw e, w1, t1) => (Throw e, w1, t1)
    end.

(** [try { m } catch (error) { h error }] *)
Definition try_catch {A : Type} (m : M A) (h : JsError -> M A) : M A :=
  fun w =>
    match m w with
    | (Throw e, w1, t1) =>
        match h e w1 with (r, w2, t2) => (r, w2, (t1 ++ t2)%list) end
    | done => done
    end.

Local Notation "x <- m ;; k" := (bind m (fun x => k))
  (at level 61, m at next level, right associativity).
Local Notation "m ;; k" := (bind m (fun _ => k))
  (at level 61, right associativity).

Definition outcome {A : Type} (r : Result A * W * list Event) : Result A :=
  fst (fst r).
Definition final {A : Type} (r : Result A * W * list Event) : W :=
  snd (fst r).
Definition events {A : Type} (r : Result A * W * list Event) : list Event :=
  snd r.

(** ** Collaborators *)

(** [res.status(code).json(payload)] *)
Definition res_status_json (code : Z) (payload : JsVal) : M unit :=
  emit (EvRespond code payload).

Definition console_error (msg : string) (error : JsError) : M unit :=
  emit (EvLog msg error).

(** utils/firebaseAdmin.js *)
Definition verifyIdToken (token : option string) : M DecodedIdToken :=
  emit (EvVerify token) ;;
  lift (admin_verifyIdToken E token).

(** [rateLimiter.limit(identifier)] *)
Definition rateLimiter_limit (identifier : string) : M RatelimitResponse :=
  fun w =>
    match limit E (rate w) identifier with
    | (r, st) => (r, {| rate := st; chats := chats w |}, [EvLimit identifier])
    end.

Definition call_fetch (url : string) (init : FetchInit) : M FetchResponse :=
  emit (EvFetch url init) ;;
  lift (fetch E url init).

(** [difyResponse.json()] *)
Definition response_json (r : FetchResponse) : M JsVal :=
  emit EvJson ;;
  lift (json r).

(** [addDoc(collection(db, coll), doc)]: a refused write throws and leaves
    the collection as it was. *)
Definition addDoc (coll : string) (doc : ChatDoc) : M unit :=
  fun w =>
    match addDoc_fault E (chats w) coll doc with
    | Some err => (Throw err, w, [EvAddDoc coll doc])
    | None =>
        (Ok tt, {| rate := rate w; chats := (chats w ++ [(coll, doc)])%list |},
         [EvAddDoc coll doc])
    end.

(** utils/firestoreUtils.js *)
Definition saveChatToFirestore (userId message response : JsVal) : M unit :=
  try_catch
    (addDoc "chats"
       {| userId := userId; message := message; response := response;
          timestamp := serverTimestamp |})
    (fun error => console_error "Error saving chat to Firestore:" error).

(** The template literal [`Bearer ${process.env.DIFY_API_KEY}`]. *)
Definition dify_authorization : string :=
  "Bearer " ++ match DIFY_API_KEY E with
               | Some key => key
               | None => "undefined"
               end.

Definition dify_init (message : JsVal) (userId : string) : FetchInit :=
  {| init_method := "POST";
     init_headers := [("Authorization", dify_authorization);
                      ("Content-Type", "application/json")];
     init_body :=
       JSON_stringify E (JObj [("query", message); ("user", JStr userId)]) |}.

(** ** pages/api/chat.js *)

Definition handler (req : Request) : M unit :=
  if negb (String.eqb (method req) "POST") then
    res_status_json 405 (JObj [("error", JStr "Method not allowed")])
  else
    try_catch
      (let token := bearer_token (authorization (headers req)) in
       decodedToken <- verifyIdToken token ;;
       let userId := uid decodedToken in
       limiterRes <- rateLimiter_limit userId ;;
       if negb (success limiterRes) then
         res_status_json 429 (JObj [("error", JStr "Rate limit exceeded")])
       else
         message <- lift (destructure (body req) "message") ;;
         difyResponse <- call_fetch "YOUR_DIFY_API_URL" (dify_init message userId) ;;
         difyData <- response_json difyResponse ;;
         answer <- lift (get_prop difyData "answer") ;;
         saveChatToFirestore (JStr userId) message answer ;;
         res_status_json 200 difyData)
      (fun error =>
         console_error "Error in chat API:" error ;;
         res_status_json 500 (JObj [("error", JStr "Internal server error")])).

End Pipeline.

Arguments M : clear implicits.
Arguments bearer_token : simpl never.
Arguments destructure : simpl never.
Arguments get_prop : simpl never.
Arguments dify_init : simpl never.

(** ** The rate limiter and test doubles *)

(** The state of the sliding-window limiter behind [rateLimiter.limit]
    (the [Ratelimit] class and its Redis store, a hosted library of which
    only the configuration is in utils/rateLimiter.js): a request counter
    per subject, held in shared state. *)
Definition Counters : Type := string -> nat.

(** The first argument of [Ratelimit.slidingWindow(5, "60 s")]. *)
Definition quota : nat := 5.

(** One call of the limiter that [Ratelimit.slidingWindow(5, "60 s")]
    configures; the library is not in the repository.  A request is
    counted when it is let through: while the quota of the window is not
    used up the call answers [success = true] and increments the counter
    of the subject; once it is used up the call answers [success = false]
    and leaves the counter as it is.  (Section 4.2 of the specification
    has every call increment the counter, a denied one too.)  One request
    falls in one window, so the clock of the window is left out. *)
Definition consume (st : Counters) (subject : string)
  : Result RatelimitResponse * Counters :=
  let n := st subject in
  if Nat.ltb n quota
  then (Ok {| success := true; remaining := Z.of_nat (quota - S n) |},
        fun k => if String.eqb k subject then S n else st k)
  else (Ok {| success := false; remaining := 0 |}, st).

Module Stub.

(** Accepts the token [good] for the subject [u1] and throws on any other
    argument, an absent token included. *)
Definition verify (token : option string) : Result DecodedIdToken :=
  match token with
  | Some "good" => Ok {| uid := "u1" |}
  | _ => Throw (Rejected "auth/argument-error")
  end.

(** An upstream that answers with [status] and the parsed content [data]
    whatever it is asked. *)
Definition upstream (status : Z) (data : Result JsVal)
  : string -> FetchInit -> Result FetchResponse :=
  fun _ _ => Ok {| status := status; json := data |}.

Definition unreachable : string -> FetchInit -> Result FetchResponse :=
  fun _ _ => Throw (Rejected "fetch failed").

Definition store_up : list (string * ChatDoc) -> string -> ChatDoc -> option JsError :=
  fun _ _ _ => None.

Definition store_down : list (string * ChatDoc) -> string -> ChatDoc -> option JsError :=
  fun _ _ _ => Some (Rejected "unavailable").

Definition env (fetch : string -> FetchInit -> Result FetchResponse)
    (fault : list (string * ChatDoc) -> string -> ChatDoc -> option JsError)
  : Env Counters :=
  {| admin_verifyIdToken := verify;
     limit := consume;
     fetch := fetch;
     addDoc_fault := fault;
     JSON_stringify := fun _ => "{}";
     DIFY_API_KEY := Some "key" |}.

Definition post (auth : option string) (body : JsVal) : Request :=
  {| method := "POST"; headers := {| authorization := auth |}; body := body |}.

Definition fresh : World Counters := {| rate := fun _ => O; chats := [] |}.

(** A world in which the subject [u1] has used up the quota. *)
Definition spent : World Counters :=
  {| rate := fun k => if String.eqb k "u1" then quota else O; chats := [] |}.

Definition hi : JsVal := JObj [("answer", JStr "hi")].
Definition hello : JsVal := JObj [("message", JStr "hello")].

Definition u1 : DecodedIdToken := {| uid := "u1" |}.

(** The message [hello] with a good credential. *)
Definition good_hello : Request := post (Some "Bearer good") hello.

Definition get : Request :=
  {| method := "GET"; headers := {| authorization := Some "Bearer good" |};
     body := JStr "" |}.

(** Everything works and the upstream answers [{answer: "hi"}]. *)
Definition healthy : Env Counters := env (upstream 200 (Ok hi)) store_up.

(** The upstream answers 503 with a JSON error document. *)
Definition overloaded : JsVal := JObj [("error", JStr "overloaded")].
Definition upstream_503 : Env Counters :=
  env (upstream 503 (Ok overloaded)) store_up.

(** The upstream answers 200 with a page that is not JSON. *)
Definition upstream_garbled : Env Counters :=
  env (upstream 200 (Throw (Rejected "Unexpected token <"))) store_up.

Definition upstream_down : Env Counters := env unreachable store_up.

Definition firestore_down : Env Counters :=
  env (upstream 200 (Ok hi)) store_down.

End Stub.

Definition method_not_allowed : JsVal :=
  JObj [("error", JStr "Method not allowed")].
Definition rate_limit_exceeded : JsVal :=
  JObj [("error", JStr "Rate limit exceeded")].
Definition internal_server_error : JsVal :=
  JObj [("error", JStr "Internal server error")].

Definition dify_url : string := "YOUR_DIFY_API_URL".

(** ** The upstream status *)

(** The environment [E] with an upstream whose HTTP status is rewritten by
    [f] and whose content is left alone. *)
Definition with_status (RateState : Type) (f : Z -> Z) (E : Env RateState)
  : Env RateState :=
  {| admin_verifyIdToken := admin_verifyIdToken E;
     limit := limit E;
     fetch := fun url init =>
                match fetch E url init with
                | Ok r => Ok {| status := f (status r); json := json r |}
                | Throw e => Throw e
                end;
     addDoc_fault := addDoc_fault E;
     JSON_stringify := JSON_stringify E;
     DIFY_API_KEY := DIFY_API_KEY E |}.

(** [sep] occurs in [s] at some position. *)
Fixpoint occurs (sep s : string) : bool :=
  match s with
  | EmptyString => String.prefix sep ""
  | String _ s' => String.prefix sep s || occurs sep s'
  end.

(** The character [c] is one of [s]. *)
Fixpoint has_char (c : ascii) (s : string) : bool :=
  match s with
  | EmptyString => false
  | String d s' => Ascii.eqb c d || has_char c s'
  end.

(** ** utils/firebaseAdmin.js: the private key *)

Definition backslash : ascii := ascii_of_nat 92.
Definition line_feed : ascii := ascii_of_nat 10.

(** [s.replace(/\\n/g, '\n')]: every backslash followed by the letter n,
    found from the left without overlap, becomes one line feed. *)
Fixpoint replace_escaped_newlines (s : string) : string :=
  match s with
  | EmptyString => EmptyString
  | String c rest =>
      match rest with
      | String d rest' =>
          if Ascii.eqb c backslash && Ascii.eqb d "n"
          then String line_feed (replace_escaped_newlines rest')
          else String c (replace_escaped_newlines rest)
      | EmptyString => String c EmptyString
      end
  end.

(** The [privateKey] field of the credential:
    [process.env.FIREBASE_PRIVATE_KEY.replace(...)], which throws when the
    variable is not set. *)
Definition privateKey (FIREBASE_PRIVATE_KEY : option string) : Result string :=
  match FIREBASE_PRIVATE_KEY with
  | None =>
      Throw (TypeError "Cannot read properties of undefined (reading 'replace')")
  | Some key => Ok (replace_escaped_newlines key)
  end.

(** A backslash directly followed by the letter n occurs in [s]. *)
Fixpoint escaped_newline_in (s : string) : bool :=
  match s with
  | EmptyString => false
  | String c rest =>
      match rest with
      | String d _ =>
          (Ascii.eqb c backslash && Ascii.eqb d "n") || escaped_newline_in rest
      | EmptyString => false
      end
  end.

(** ** components/ChatInterface.js *)

Module ChatInterface.

(** One line of the conversation shown. *)
Record ChatEntry : Type := {
  role : string;
  content : JsVal
}.

(** The signed-in user of the auth context; [getIdToken] is what the call
    of that name resolves to, or why it rejects. *)
Record User : Type := { getIdToken : Result string }.

(** What one call of [sendMessage] finds around it. *)
Record Browser : Type := {
  (* useAuth().user, null when nobody is signed in *)
  user : option User;
  (* the global fetch of the browser *)
  fetch : string -> FetchInit -> Result FetchResponse;
  JSON_stringify : JsVal -> string
}.

(** The calls [sendMessage] makes.  The setter of [useState] takes the next
    value, or a function of the value React holds when it runs it. *)
Inductive UiEvent : Type :=
| UiSetChatHistory (value : list ChatEntry)
| UiUpdateChatHistory (updater : list ChatEntry -> Result (list ChatEntry))
| UiSetMessage (value : string)
| UiGetIdToken
| UiFetch (url : string) (init : FetchInit)
| UiJson
| UiLog (msg : string) (err : JsError).

Definition is_ui_fetch (e : UiEvent) : bool :=
  match e with UiFetch _ _ => true | _ => false end.
Definition is_ui_log (e : UiEvent) : bool :=
  match e with UiLog _ _ => true | _ => false end.

(** The two pieces of state of the component. *)
Record UiState : Type := {
  message : string;
  chatHistory : list ChatEntry
}.

(** React runs the queued state changes in the order of the calls. *)
Definition apply (s : UiState) (e : UiEvent) : Result UiState :=
  match e with
  | UiSetChatHistory value =>
      Ok {| message := message s; chatHistory := value |}
  | UiUpdateChatHistory updater =>
      match updater (chatHistory s) with
      | Ok value => Ok {| message := message s; chatHistory := value |}
      | Throw err => Throw err
      end
  | UiSetMessage value =>
      Ok {| message := value; chatHistory := chatHistory s |}
  | _ => Ok s
  end.

Fixpoint apply_all (s : UiState) (t : list UiEvent) : Result UiState :=
  match t with
  | [] => Ok s
  | e :: t' =>
      match apply s e with
      | Ok s' => apply_all s' t'
      | Throw err => Throw err
      end
  end.

(** White space and line terminators of ECMAScript among the code units
    below 256, the ones a [string] here is made of: TAB, LF, VT, FF, CR,
    SP and NBSP. *)
Definition is_white_space (c : ascii) : bool :=
  let n := nat_of_ascii c in
  (Nat.leb 9 n && Nat.leb n 13) || Nat.eqb n 32 || Nat.eqb n 160.

Fixpoint trimStart (s : string) : string :=
  match s with
  | EmptyString => EmptyString
  | String c s' => if is_white_space c then trimStart s' else s
  end.

Fixpoint trimEnd (s : string) : string :=
  match s with
  | EmptyString => EmptyString
  | String c s' =>
      match trimEnd s' with
      | EmptyString => if is_white_space c then EmptyString else String c EmptyString
      | kept => String c kept
      end
  end.

(** Every code unit of [s] is white space. *)
Fixpoint blank (s : string) : bool :=
  match s with
  | EmptyString => true
  | String c s' => is_white_space c && blank s'
  end.

(** [String.prototype.trim] *)
Definition trim (s : string) : string := trimEnd (trimStart s).

(** [!s] for a string: only the empty string is falsy. *)
Definition not_string (s : string) : bool :=
  match s with EmptyString => true | _ => false end.

(** A computation of the component returns or throws and lists its calls;
    the calls made before a throw stay. *)
Definition Ui (A : Type) : Type := Result A * list UiEvent.

Definition ret {A : Type} (a : A) : Ui A := (Ok a, []).

Definition lift {A : Type} (r : Result A) : Ui A := (r, []).

Definition emit (e : UiEvent) : Ui unit := (Ok tt, [e]).

Definition bind {A B : Type} (m : Ui A) (k : A -> Ui B) : Ui B :=
  match m with
  | (Ok a, t1) => match k a with (r, t2) => (r, (t1 ++ t2)%list) end
  | (Throw e, t1) => (Throw e, t1)
  end.

Definition try_catch {A : Type} (m : Ui A) (h : JsError -> Ui A) : Ui A :=
  match m with
  | (Throw e, t1) => match h e with (r, t2) => (r, (t1 ++ t2)%list) end
  | done => done
  end.

Section Component.

Variable B : Browser.

(** [user.getIdToken()], [user] being [null] when nobody is signed in. *)
Definition user_getIdToken : Ui string :=
  match user B with
  | None =>
      lift (Throw (TypeError "Cannot read properties of null (reading 'getIdToken')"))
  | Some u => bind (emit UiGetIdToken) (fun _ => lift (getIdToken u))
  end.

Definition chat_init (idToken : string) (message : string) : FetchInit :=
  {| init_method := "POST";
     init_headers := [("Content-Type", "application/json");
                      ("Authorization", "Bearer " ++ idToken)];
     init_body := JSON_stringify B (JObj [("message", JStr message)]) |}.

(** [prev => [...prev, { role: 'assistant', content: data.answer }]];
    [data.answer] is read when React runs the function. *)
Definition append_answer (data : JsVal) (prev : list ChatEntry)
  : Result (list ChatEntry) :=
  match get_prop data "answer" with
  | Ok answer => Ok (prev ++ [{| role := "assistant"; content := answer |}])%list
  | Throw err => Throw err
  end.

(** [sendMessage], with the [message] and the [chatHistory] of the render
    that created it. *)
Definition sendMessage (message : string) (chatHistory : list ChatEntry)
  : Ui unit :=
  if not_string (trim message) then ret tt
  else
    let newMessage := {| role := "user"; content := JStr message |} in
    bind (emit (UiSetChatHistory (chatHistory ++ [newMessage])%list)) (fun _ =>
    bind (emit (UiSetMessage "")) (fun _ =>
    try_catch
      (bind user_getIdToken (fun idToken =>
       bind (emit (UiFetch "/api/chat" (chat_init idToken message))) (fun _ =>
       bind (lift (fetch B "/api/chat" (chat_init idToken message))) (fun response =>
       bind (emit UiJson) (fun _ =>
       bind (lift (json response)) (fun data =>
       emit (UiUpdateChatHistory (append_answer data))))))))
      (fun error => emit (UiLog "Error sending message:" error)))).

End Component.

End ChatInterface.

Module StubPage.

(** The rate limiter cannot reach its store. *)
Definition limiter_down : Env Counters :=
  {| admin_verifyIdToken := Stub.verify;
     limit := fun st _ => (Throw (Rejected "redis unreachable"), st);
     fetch := Stub.upstream 200 (Ok Stub.hi);
     addDoc_fault := Stub.store_up;
     JSON_stringify := fun _ => "{}";
     DIFY_API_KEY := Some "key" |}.

Definition signed_in : ChatInterface.User :=
  {| ChatInterface.getIdToken := Ok "good" |}.

Definition browser (user : option ChatInterface.User)
    (fetch : string -> FetchInit -> Result FetchResponse)
  : ChatInterface.Browser :=
  {| ChatInterface.user := user;
     ChatInterface.fetch := fetch;
     ChatInterface.JSON_stringify := fun _ => "{}" |}.

(** One earlier line on the page and a text in the input. *)
Definition earlier : list ChatInterface.ChatEntry :=
  [{| ChatInterface.role := "user"; ChatInterface.content := JStr "first" |}].

Definition typing : ChatInterface.UiState :=
  {| ChatInterface.message := "hello"; ChatInterface.chatHistory := earlier |}.

End StubPage.

(** * Properties of the handler *)

(** ** Symbolic execution *)

Ltac unfold_pipeline :=
  unfold handler, saveChatToFirestore, verifyIdToken, rateLimiter_limit,
    call_fetch, response_json, addDoc, res_status_json, console_error,
    try_catch, bind, emit, lift, ret, outcome, final, events,
    method_not_allowed, rate_limit_exceeded, internal_server_error;
  unfold dify_url in *.

(** Uses what is known of a collaborator's answer, then computes. *)
Ltac known :=
  repeat match goal with
         | H : ?lhs = _ |- context [?lhs] => rewrite H; cbn
         end.

(** Splits on a collaborator's answer that is not known. *)
Ltac branch :=
  match goal with
  | |- context [match ?x with _ => _ end] =>
      lazymatch x with
      | context [match _ with _ => _ end] => fail
      | _ => destruct x eqn:?; cbn
      end
  end.

Ltac run := unfold_pipeline; cbn; known.
Ltac run_all := run; repeat (branch; known).

Lemma not_post (m : string) : m <> "POST" -> negb (String.eqb m "POST") = true.
Proof.
  intros H. apply negb_true_iff, String.eqb_neq. exact H.
Qed.

Lemma is_post (m : string) : m = "POST" -> negb (String.eqb m "POST") = false.
Proof.
  intros ->. reflexivity.
Qed.

(** The token extraction on the shapes of header a caller can send. *)
Example bearer_token_absent : bearer_token None = None.
Proof. reflexivity. Qed.

Example bearer_token_no_scheme : bearer_token (Some "good") = None.
Proof. reflexivity. Qed.

Example bearer_token_plain : bearer_token (Some "Bearer good") = Some "good".
Proof. reflexivity. Qed.

Example bearer_token_twice :
  bearer_token (Some "Bearer a Bearer b") = Some "a ".
Proof. reflexivity. Qed.

Lemma destructure_object (v : JsVal) (k : string) :
  v <> JNull -> v <> JUndefined -> exists m, destructure v k = Ok m.
Proof.
  intros Hn Hu. destruct v; try congruence; eexists; reflexivity.
Qed.

Example destructure_no_message : destructure (JObj []) "message" = Ok JUndefined.
Proof. reflexivity. Qed.

Example destructure_empty_message :
  destructure (JObj [("message", JStr "")]) "message" = Ok (JStr "").
Proof. reflexivity. Qed.

(** ** The paths through the handler

    One lemma per way an execution can go: the answer of each collaborator
    on the way fixes the events, in order, and the world left behind. *)

Section Paths.

Variable RateState : Type.
Variable E : Env RateState.
Variable req : Request.
Variable w : World RateState.

Lemma handler_non_post :
  method req <> "POST" ->
  handler E req w = (Ok tt, w, [EvRespond 405 method_not_allowed]).
Proof.
  intros Hm. apply not_post in Hm. run. reflexivity.
Qed.

Hypothesis Hpost : method req = "POST".

Local Abbreviation token := (bearer_token (authorization (headers req))).

Lemma handler_unauthenticated (e : JsError) :
  admin_verifyIdToken E token = Throw e ->
  handler E req w =
    (Ok tt, w,
     [EvVerify token; EvLog "Error in chat API:" e;
      EvRespond 500 internal_server_error]).
Proof.
  intros Hv. apply is_post in Hpost. run. reflexivity.
Qed.

Variable tok : DecodedIdToken.
Hypothesis Hverify : admin_verifyIdToken E token = Ok tok.

Lemma handler_limiter_error (e : JsError) (st : RateState) :
  limit E (rate w) (uid tok) = (Throw e, st) ->
  handler E req w =
    (Ok tt, {| rate := st; chats := chats w |},
     [EvVerify token; EvLimit (uid tok); EvLog "Error in chat API:" e;
      EvRespond 500 internal_server_error]).
Proof.
  intros Hl. apply is_post in Hpost. run. reflexivity.
Qed.

Variable lr : RatelimitResponse.
Variable st : RateState.
Hypothesis Hlimit : limit E (rate w) (uid tok) = (Ok lr, st).

Lemma handler_denied :
  success lr = false ->
  handler E req w =
    (Ok tt, {| rate := st; chats := chats w |},
     [EvVerify token; EvLimit (uid tok); EvRespond 429 rate_limit_exceeded]).
Proof.
  intros Hs. apply is_post in Hpost. run. reflexivity.
Qed.

Hypothesis Hgranted : success lr = true.

Lemma handler_bad_body (e : JsError) :
  destructure (body req) "message" = Throw e ->
  handler E req w =
    (Ok tt, {| rate := st; chats := chats w |},
     [EvVerify token; EvLimit (uid tok); EvLog "Error in chat API:" e;
      EvRespond 500 internal_server_error]).
Proof.
  intros Hb. apply is_post in Hpost. run. reflexivity.
Qed.

Variable msg : JsVal.
Hypothesis Hbody : destructure (body req) "message" = Ok msg.

Local Abbreviation init := (dify_init E msg (uid tok)).

Lemma handler_fetch_rejected (e : JsError) :
  fetch E dify_url init = Throw e ->
  handler E req w =
    (Ok tt, {| rate := st; chats := chats w |},
     [EvVerify token; EvLimit (uid tok); EvFetch dify_url init;
      EvLog "Error in chat API:" e; EvRespond 500 internal_server_error]).
Proof.
  intros Hf. apply is_post in Hpost. run. reflexivity.
Qed.

Variable resp : FetchResponse.
Hypothesis Hfetch : fetch E dify_url init = Ok resp.

Lemma handler_unparsable (e : JsError) :
  json resp = Throw e ->
  handler E req w =
    (Ok tt, {| rate := st; chats := chats w |},
     [EvVerify token; EvLimit (uid tok); EvFetch dify_url init; EvJson;
      EvLog "Error in chat API:" e; EvRespond 500 internal_server_error]).
Proof.
  intros Hj. apply is_post in Hpost. run. reflexivity.
Qed.

Variable data : JsVal.
Hypothesis Hjson : json resp = Ok data.

Lemma handler_no_answer (e : JsError) :
  get_prop data "answer" = Throw e ->
  handler E req w =
    (Ok tt, {| rate := st; chats := chats w |},
     [EvVerify token; EvLimit (uid tok); EvFetch dify_url init; EvJson;
      EvLog "Error in chat API:" e; EvRespond 500 internal_server_error]).
Proof.
  intros Ha. apply is_post in Hpost. run. reflexivity.
Qed.

Variable answer : JsVal.
Hypothesis Hanswer : get_prop data "answer" = Ok answer.

Local Abbreviation doc :=
  {| userId := JStr (uid tok); message := msg; response := answer;
     timestamp := serverTimestamp |}.

Lemma handler_recorded :
  addDoc_fault E (chats w) "chats" doc = None ->
  handler E req w =
    (Ok tt, {| rate := st; chats := (chats w ++ [("chats", doc)])%list |},
     [EvVerify token; EvLimit (uid tok); EvFetch dify_url init; EvJson;
      EvAddDoc "chats" doc; EvRespond 200 data]).
Proof.
  intros Hd. apply is_post in Hpost. run. reflexivity.
Qed.

Lemma handler_record_failed (e : JsError) :
  addDoc_fault E (chats w) "chats" doc = Some e ->
  handler E req w =
    (Ok tt, {| rate := st; chats := chats w |},
     [EvVerify token; EvLimit (uid tok); EvFetch dify_url init; EvJson;
      EvAddDoc "chats" doc; EvLog "Error saving chat to Firestore:" e;
      EvRespond 200 data]).
Proof.
  intros Hd. apply is_post in Hpost. run. reflexivity.
Qed.

End Paths.

(** ** The method gate, verification and admission *)

Section Gate.

Variable RateState : Type.
Variable E : Env RateState.

(** C8: a request whose method is not POST is answered with 405 before any
    collaborator is invoked: the response is the only event, so there is no
    verification, no rate-limiter call, no relay call and no record write,
    and both stores are left as they were. *)
Theorem non_post_is_405 (req : Request) (w : World RateState) :
  method req <> "POST" ->
  let r := handler E req w in
  events r = [EvRespond 405 method_not_allowed]
  /\ responses (events r) = [(405%Z, method_not_allowed)]
  /\ count is_verify (events r) = 0
  /\ count is_limit (events r) = 0
  /\ count is_relay (events r) = 0
  /\ count is_record (events r) = 0
  /\ final r = w.
Proof.
  intros Hm r. subst r. rewrite handler_non_post by assumption.
  repeat split.
Qed.

(** C1, as the code has it: when the verify step raises on the token taken
    from the header (absent, without the Bearer scheme, or refused by the
    identity provider), the handler logs the error and answers with 500
    and the generic body; it makes no rate-limiter call, no relay call and
    no record write, and leaves both stores as they were. *)
Theorem unauthenticated_is_500 (req : Request) (w : World RateState)
    (e : JsError) :
  method req = "POST" ->
  admin_verifyIdToken E (bearer_token (authorization (headers req))) = Throw e ->
  let r := handler E req w in
  responses (events r) = [(500%Z, internal_server_error)]
  /\ count is_limit (events r) = 0
  /\ count is_relay (events r) = 0
  /\ count is_record (events r) = 0
  /\ final r = w.
Proof.
  intros Hm Hv r. subst r. erewrite handler_unauthenticated by eassumption.
  repeat split.
Qed.

(** C4: for an authenticated request to which the rate limiter answers
    [success = false], the handler answers with 429 and makes no relay call
    and no record write; the collection is left as it was. *)
Theorem denied_is_429 (req : Request) (w : World RateState)
    (tok : DecodedIdToken) (lr : RatelimitResponse) (st : RateState) :
  method req = "POST" ->
  admin_verifyIdToken E (bearer_token (authorization (headers req))) = Ok tok ->
  limit E (rate w) (uid tok) = (Ok lr, st) ->
  success lr = false ->
  let r := handler E req w in
  responses (events r) = [(429%Z, rate_limit_exceeded)]
  /\ count is_relay (events r) = 0
  /\ count is_record (events r) = 0
  /\ chats (final r) = chats w.
Proof.
  intros Hm Hv Hl Hs r. subst r. erewrite handler_denied by eassumption.
  repeat split.
Qed.

(** Whatever comes after verification, the rate limiter is called exactly
    once, for the verified subject, and nothing else changes the rate
    store. *)
Lemma handler_limit_once (req : Request) (w : World RateState)
    (tok : DecodedIdToken) :
  method req = "POST" ->
  admin_verifyIdToken E (bearer_token (authorization (headers req))) = Ok tok ->
  filter is_limit (events (handler E req w)) = [EvLimit (uid tok)]
  /\ rate (final (handler E req w)) = snd (limit E (rate w) (uid tok)).
Proof.
  intros Hm Hv. apply is_post in Hm. run_all; split; reflexivity.
Qed.

End Gate.

(** ** Relay and record *)

Section Relay.

Variable RateState : Type.
Variable E : Env RateState.
Variable req : Request.
Variable w : World RateState.
Variable tok : DecodedIdToken.
Variable lr : RatelimitResponse.
Variable st : RateState.

Hypothesis Hpost : method req = "POST".
Hypothesis Hverify :
  admin_verifyIdToken E (bearer_token (authorization (headers req))) = Ok tok.
Hypothesis Hlimit : limit E (rate w) (uid tok) = (Ok lr, st).
Hypothesis Hgranted : success lr = true.

(** C2, as the code has it: for an authenticated and granted request whose
    relay call fails because [fetch] rejects (a timeout, an unreachable
    upstream) or because the content of the response does not parse, the
    handler answers with 500 and the record step is not executed.  The
    HTTP status of the upstream response is not looked at. *)
Theorem relay_failure_is_500 (msg : JsVal) (e : JsError) :
  destructure (body req) "message" = Ok msg ->
  fetch E dify_url (dify_init E msg (uid tok)) = Throw e
  \/ (exists resp, fetch E dify_url (dify_init E msg (uid tok)) = Ok resp
                   /\ json resp = Throw e) ->
  let r := handler E req w in
  responses (events r) = [(500%Z, internal_server_error)]
  /\ count is_record (events r) = 0
  /\ chats (final r) = chats w.
Proof.
  intros Hb [Hf | [resp [Hf Hj]]] r; subst r.
  - erewrite handler_fetch_rejected by eassumption. repeat split.
  - erewrite handler_unparsable by eassumption. repeat split.
Qed.

(** C9, as the code has it: for an authenticated and granted request whose
    body is neither [null] nor [undefined], the handler makes exactly one
    relay call, carrying whatever [message] the body has: an empty string,
    or [undefined] when the body has no such property.  Nothing inspects
    the message before the call. *)
Theorem message_relayed_unchecked :
  body req <> JNull ->
  body req <> JUndefined ->
  let r := handler E req w in
  exists msg,
    destructure (body req) "message" = Ok msg
    /\ filter is_fetch (events r) = [EvFetch dify_url (dify_init E msg (uid tok))]
    /\ init_body (dify_init E msg (uid tok)) =
         JSON_stringify E (JObj [("query", msg); ("user", JStr (uid tok))]).
Proof.
  intros Hn Hu r.
  destruct (destructure_object "message" Hn Hu) as [msg Hb].
  exists msg. split; [exact Hb | split; [| reflexivity]].
  subst r. apply is_post in Hpost. run_all; reflexivity.
Qed.

Variable msg : JsVal.
Variable resp : FetchResponse.
Variable data : JsVal.
Variable answer : JsVal.

Hypothesis Hbody : destructure (body req) "message" = Ok msg.
Hypothesis Hfetch : fetch E dify_url (dify_init E msg (uid tok)) = Ok resp.
Hypothesis Hjson : json resp = Ok data.
Hypothesis Hanswer : get_prop data "answer" = Ok answer.

(** C5: when the relay succeeds (the upstream response parses to [data],
    whose [answer] can be read) and Firestore refuses the write, the
    handler still answers with 200 and [data], the relay's answer; the
    failure is logged by [saveChatToFirestore] and is no part of any
    response. *)
Theorem record_failure_is_200 (e : JsError) :
  addDoc_fault E (chats w) "chats"
    {| userId := JStr (uid tok); message := msg; response := answer;
       timestamp := serverTimestamp |} = Some e ->
  let r := handler E req w in
  outcome r = Ok tt
  /\ responses (events r) = [(200%Z, data)]
  /\ get_prop data "answer" = Ok answer
  /\ In (EvLog "Error saving chat to Firestore:" e) (events r)
  /\ chats (final r) = chats w.
Proof.
  intros Hd r. subst r. erewrite handler_record_failed by eassumption.
  cbn. repeat split; auto 10.
Qed.

End Relay.

Section RoundTrip.

Variable RateState : Type.
Variable E : Env RateState.

(** C6: message [hello] from the verified subject [u1], an upstream that
    returns [{answer: "hi"}], a permitting rate limiter and a store that
    takes the write: the one response is 200 with a body whose [answer] is
    [hi], and exactly one record
    [{userId: "u1", message: "hello", response: "hi"}], with the server
    timestamp, is appended to the collection [chats]. *)
Theorem hello_hi_round_trip (req : Request) (w : World RateState)
    (tok : DecodedIdToken) (lr : RatelimitResponse) (st : RateState)
    (resp : FetchResponse) :
  method req = "POST" ->
  body req = JObj [("message", JStr "hello")] ->
  admin_verifyIdToken E (bearer_token (authorization (headers req))) = Ok tok ->
  uid tok = "u1" ->
  limit E (rate w) "u1" = (Ok lr, st) ->
  success lr = true ->
  fetch E dify_url (dify_init E (JStr "hello") "u1") = Ok resp ->
  json resp = Ok (JObj [("answer", JStr "hi")]) ->
  addDoc_fault E (chats w) "chats"
    {| userId := JStr "u1"; message := JStr "hello"; response := JStr "hi";
       timestamp := serverTimestamp |} = None ->
  let r := handler E req w in
  responses (events r) = [(200%Z, JObj [("answer", JStr "hi")])]
  /\ count is_record (events r) = 1
  /\ chats (final r) =
       (chats w ++
        [("chats", {| userId := JStr "u1"; message := JStr "hello";
                      response := JStr "hi"; timestamp := serverTimestamp |})])%list.
Proof.
  intros Hm Hb Hv Hu Hl Hs Hf Hj Hd r. subst r.
  destruct tok as [u]. cbn in Hu. subst u.
  erewrite handler_recorded with (msg := JStr "hello") (answer := JStr "hi");
    try eassumption; try (rewrite Hb; reflexivity); try reflexivity.
  repeat split.
Qed.

(** C3: an execution writes at most one Exchange Record: [addDoc] is
    called at most once and the collection grows by at most one document,
    in [chats].  When the verify step raises, and when the rate limiter
    denies, [addDoc] is not called and the collection is left as it was. *)
Theorem record_at_most_once (req : Request) (w : World RateState) :
  let r := handler E req w in
  count is_record (events r) <= 1
  /\ (chats (final r) = chats w
      \/ exists doc, chats (final r) = (chats w ++ [("chats", doc)])%list)
  /\ (forall e,
        method req = "POST" ->
        admin_verifyIdToken E (bearer_token (authorization (headers req))) = Throw e ->
        count is_record (events r) = 0 /\ chats (final r) = chats w)
  /\ (forall tok lr st,
        method req = "POST" ->
        admin_verifyIdToken E (bearer_token (authorization (headers req))) = Ok tok ->
        limit E (rate w) (uid tok) = (Ok lr, st) ->
        success lr = false ->
        count is_record (events r) = 0 /\ chats (final r) = chats w).
Proof.
  intros r. subst r. split; [| split; [| split]].
  - run_all; auto.
  - run_all; auto; right; eexists; reflexivity.
  - intros e Hm Hv. erewrite handler_unauthenticated by eassumption.
    split; reflexivity.
  - intros tok lr st Hm Hv Hl Hs. erewrite handler_denied by eassumption.
    split; reflexivity.
Qed.

(** C10: every execution of the handler ends normally, no exception leaves
    it, and has sent exactly one response, whichever path it took; sending
    it is the last thing the handler does. *)
Theorem exactly_one_response (req : Request) (w : World RateState) :
  outcome (handler E req w) = Ok tt
  /\ List.length (responses (events (handler E req w))) = 1
  /\ count is_respond (events (handler E req w)) = 1
  /\ is_respond (last (events (handler E req w)) EvJson) = true.
Proof.
  run_all; repeat split.
Qed.

End RoundTrip.

(** ** The quota *)

(** The configured limiter counts a request exactly when it grants it. *)
Lemma consume_counts_granted (st st' : Counters) (k : string)
    (lr : RatelimitResponse) :
  consume st k = (Ok lr, st') ->
  st' k = if success lr then S (st k) else st k.
Proof.
  unfold consume. destruct (Nat.ltb (st k) quota); intros H;
    injection H as <- <-; cbn; [rewrite String.eqb_refl |]; reflexivity.
Qed.

Section Quota.

Variable RateState : Type.
Variable E : Env RateState.

(** C7, as the code has it: for a request that passes verification the
    admission call is made exactly once, for the verified subject, and the
    rate store is left exactly as that one call leaves it, whether the
    call grants or denies and whatever the relay and the record step do
    afterwards.  Hence, with a limiter that counts a request exactly when
    it grants it, the counter of the subject is raised by one when
    admission is granted, also when the relay then fails, and is left as
    it was when admission is denied. *)
Theorem admission_call_made_once (req : Request) (w : World RateState)
    (tok : DecodedIdToken) :
  method req = "POST" ->
  admin_verifyIdToken E (bearer_token (authorization (headers req))) = Ok tok ->
  let r := handler E req w in
  filter is_limit (events r) = [EvLimit (uid tok)]
  /\ rate (final r) = snd (limit E (rate w) (uid tok))
  /\ (forall counter : RateState -> string -> nat,
        (forall st k lr st',
            limit E st k = (Ok lr, st') ->
            counter st' k = if success lr then S (counter st k) else counter st k) ->
        forall lr st',
          limit E (rate w) (uid tok) = (Ok lr, st') ->
          counter (rate (final r)) (uid tok)
          = if success lr then S (counter (rate w) (uid tok))
            else counter (rate w) (uid tok)).
Proof.
  intros Hm Hv r. subst r.
  destruct (handler_limit_once E req w Hm Hv) as [Hcalls Hrate].
  split; [exact Hcalls | split; [exact Hrate |]].
  intros counter Hcounts lr st' Hl.
  rewrite Hrate, Hl. cbn [snd]. exact (Hcounts _ _ _ _ Hl).
Qed.

End Quota.

(** ** Concrete executions *)

(** C1 fails as stated: a POST request without an Authorization header, on
    which verification raises, is answered with 500; no 401 is sent. *)
Lemma missing_credential_is_not_401 :
  method (Stub.post None Stub.hello) = "POST"
  /\ bearer_token (authorization (headers (Stub.post None Stub.hello))) = None
  /\ admin_verifyIdToken Stub.healthy None = Throw (Rejected "auth/argument-error")
  /\ responses (events (handler Stub.healthy (Stub.post None Stub.hello) Stub.fresh))
     = [(500%Z, internal_server_error)]
  /\ ~ In 401%Z
       (map fst (responses (events (handler Stub.healthy (Stub.post None Stub.hello)
                                      Stub.fresh)))).
Proof.
  repeat split. cbn. intros [H | []]. discriminate H.
Qed.

(** C2 fails as stated: when the upstream answers 503 with a JSON
    document, the handler answers 200 with that document and the record
    step runs. *)
Lemma upstream_503_is_not_500 :
  fetch Stub.upstream_503 dify_url (dify_init Stub.upstream_503 (JStr "hello") "u1")
  = Ok {| status := 503; json := Ok Stub.overloaded |}
  /\ ok {| status := 503; json := Ok Stub.overloaded |} = false
  /\ responses (events (handler Stub.upstream_503 Stub.good_hello Stub.fresh))
     = [(200%Z, Stub.overloaded)]
  /\ count is_record (events (handler Stub.upstream_503 Stub.good_hello Stub.fresh)) = 1.
Proof.
  repeat split.
Qed.

(** C9 fails as stated: an authenticated and granted request whose JSON
    body is [null] has no message, and it is not relayed: destructuring
    throws and the handler answers 500 without a call to the upstream. *)
Lemma null_body_is_not_relayed :
  method (Stub.post (Some "Bearer good") JNull) = "POST"
  /\ admin_verifyIdToken Stub.healthy
       (bearer_token (authorization (headers (Stub.post (Some "Bearer good") JNull))))
     = Ok Stub.u1
  /\ fst (limit Stub.healthy (rate Stub.fresh) "u1")
     = Ok {| success := true; remaining := 4 |}
  /\ count is_fetch
       (events (handler Stub.healthy (Stub.post (Some "Bearer good") JNull) Stub.fresh))
     = 0
  /\ responses
       (events (handler Stub.healthy (Stub.post (Some "Bearer good") JNull) Stub.fresh))
     = [(500%Z, internal_server_error)].
Proof.
  repeat split.
Qed.

Lemma non_post_is_405_witness :
  method Stub.get <> "POST"
  /\ events (handler Stub.healthy Stub.get Stub.fresh)
     = [EvRespond 405 method_not_allowed].
Proof.
  assert (Hm : method Stub.get <> "POST") by discriminate.
  split; [exact Hm |].
  exact (proj1 (@non_post_is_405 _ Stub.healthy Stub.get Stub.fresh Hm)).
Defined.

Lemma unauthenticated_is_500_witness :
  responses (events (handler Stub.healthy (Stub.post (Some "good") Stub.hello) Stub.fresh))
  = [(500%Z, internal_server_error)].
Proof.
  refine (proj1 (@unauthenticated_is_500 _ Stub.healthy
                   (Stub.post (Some "good") Stub.hello) Stub.fresh
                   (Rejected "auth/argument-error") _ _)); reflexivity.
Defined.

Lemma denied_is_429_witness :
  responses (events (handler Stub.healthy Stub.good_hello Stub.spent))
  = [(429%Z, rate_limit_exceeded)].
Proof.
  refine (proj1 (@denied_is_429 _ Stub.healthy Stub.good_hello Stub.spent
                   Stub.u1 {| success := false; remaining := 0 |}
                   (snd (consume (rate Stub.spent) "u1")) _ _ _ _)); reflexivity.
Defined.

Lemma relay_failure_is_500_witness :
  responses (events (handler Stub.upstream_garbled Stub.good_hello Stub.fresh))
  = [(500%Z, internal_server_error)]
  /\ responses (events (handler Stub.upstream_down Stub.good_hello Stub.fresh))
     = [(500%Z, internal_server_error)].
Proof.
  split.
  - refine (proj1 (@relay_failure_is_500 _ Stub.upstream_garbled Stub.good_hello
                     Stub.fresh Stub.u1 {| success := true; remaining := 4 |}
                     (snd (consume (rate Stub.fresh) "u1")) _ _ _ _
                     (JStr "hello") (Rejected "Unexpected token <") _ _));
      try reflexivity.
    right. eexists. split; reflexivity.
  - refine (proj1 (@relay_failure_is_500 _ Stub.upstream_down Stub.good_hello
                     Stub.fresh Stub.u1 {| success := true; remaining := 4 |}
                     (snd (consume (rate Stub.fresh) "u1")) _ _ _ _
                     (JStr "hello") (Rejected "fetch failed") _ _));
      try reflexivity.
    left. reflexivity.
Defined.

Lemma message_relayed_unchecked_witness :
  exists msg,
    destructure (JObj []) "message" = Ok msg
    /\ filter is_fetch
         (events (handler Stub.healthy (Stub.post (Some "Bearer good") (JObj []))
                    Stub.fresh))
       = [EvFetch dify_url (dify_init Stub.healthy msg "u1")]
    /\ init_body (dify_init Stub.healthy msg "u1")
       = JSON_stringify Stub.healthy (JObj [("query", msg); ("user", JStr "u1")]).
Proof.
  refine (@message_relayed_unchecked _ Stub.healthy
            (Stub.post (Some "Bearer good") (JObj [])) Stub.fresh
            Stub.u1 {| success := true; remaining := 4 |}
            (snd (consume (rate Stub.fresh) "u1")) _ _ _ _ _ _);
    try reflexivity; discriminate.
Defined.

Lemma record_failure_is_200_witness :
  responses (events (handler Stub.firestore_down Stub.good_hello Stub.fresh))
  = [(200%Z, Stub.hi)].
Proof.
  refine (proj1 (proj2 (@record_failure_is_200 _ Stub.firestore_down Stub.good_hello
                   Stub.fresh Stub.u1 {| success := true; remaining := 4 |}
                   (snd (consume (rate Stub.fresh) "u1")) _ _ _ _
                   (JStr "hello") {| status := 200; json := Ok Stub.hi |}
                   Stub.hi (JStr "hi") _ _ _ _
                   (Rejected "unavailable") _))); reflexivity.
Defined.

Lemma hello_hi_round_trip_witness :
  chats (final (handler Stub.healthy Stub.good_hello Stub.fresh))
  = [("chats", {| userId := JStr "u1"; message := JStr "hello";
                  response := JStr "hi"; timestamp := serverTimestamp |})].
Proof.
  refine (proj2 (proj2 (@hello_hi_round_trip _ Stub.healthy Stub.good_hello
                   Stub.fresh Stub.u1 {| success := true; remaining := 4 |}
                   (snd (consume (rate Stub.fresh) "u1"))
                   {| status := 200; json := Ok Stub.hi |}
                   _ _ _ _ _ _ _ _ _))); reflexivity.
Defined.

Lemma record_at_most_once_witness :
  count is_record (events (handler Stub.healthy Stub.good_hello Stub.spent)) = 0
  /\ chats (final (handler Stub.healthy Stub.good_hello Stub.spent)) = chats Stub.spent.
Proof.
  refine (proj2 (proj2 (proj2 (@record_at_most_once _ Stub.healthy Stub.good_hello
                   Stub.spent)))
            Stub.u1 {| success := false; remaining := 0 |}
            (snd (consume (rate Stub.spent) "u1")) _ _ _ _); reflexivity.
Defined.

(** C7 fails as stated: a verified request that finds the quota used up
    is denied by the one admission call, and the counter of the subject
    stands at 5 after it as before: it is not incremented. *)
Lemma denied_call_leaves_counter :
  method Stub.good_hello = "POST"
  /\ admin_verifyIdToken Stub.healthy
       (bearer_token (authorization (headers Stub.good_hello))) = Ok Stub.u1
  /\ fst (limit Stub.healthy (rate Stub.spent) "u1")
     = Ok {| success := false; remaining := 0 |}
  /\ filter is_limit (events (handler Stub.healthy Stub.good_hello Stub.spent))
     = [EvLimit "u1"]
  /\ rate Stub.spent "u1" = 5
  /\ rate (final (handler Stub.healthy Stub.good_hello Stub.spent)) "u1" = 5
  /\ rate (final (handler Stub.healthy Stub.good_hello Stub.spent)) "u1"
     <> S (rate Stub.spent "u1").
Proof.
  repeat split. cbn. discriminate.
Qed.

Lemma admission_call_made_once_witness :
  rate (final (handler Stub.upstream_down Stub.good_hello Stub.fresh)) "u1" = 1
  /\ rate (final (handler Stub.healthy Stub.good_hello Stub.spent)) "u1" = quota.
Proof.
  split.
  - refine (proj2 (proj2 (@admission_call_made_once _ Stub.upstream_down
                     Stub.good_hello Stub.fresh Stub.u1 _ _))
              (fun st k => st k) _
              {| success := true; remaining := 4 |}
              (snd (consume (rate Stub.fresh) "u1")) _);
      try reflexivity.
    intros st k lr st' H. exact (consume_counts_granted st k H).
  - refine (proj2 (proj2 (@admission_call_made_once _ Stub.healthy
                     Stub.good_hello Stub.spent Stub.u1 _ _))
              (fun st k => st k) _
              {| success := false; remaining := 0 |}
              (snd (consume (rate Stub.spent) "u1")) _);
      try reflexivity.
    intros st k lr st' H. exact (consume_counts_granted st k H).
Defined.

(** * Further properties of the chat endpoint *)

(** Reads a membership in an explicit list of events or responses. *)
Ltac which_event H :=
  cbn in H;
  repeat match type of H with
         | _ \/ _ => destruct H as [H | H]
         | False => destruct H
         end;
  try discriminate H; try (inversion H; subst; clear H).

Section Endpoint.

Variable RateState : Type.
Variable E : Env RateState.
Variable req : Request.
Variable w : World RateState.

(** X1: the handler answers with 200, 405, 429 or 500 and nothing else, and
    the body of each answer other than 200 is a fixed object with the one
    field [error]: it does not depend on the request or on the exception
    that was caught. *)
Theorem response_is_one_of_four (code : Z) (payload : JsVal) :
  In (code, payload) (responses (events (handler E req w))) ->
  code = 200%Z
  \/ (code = 405%Z /\ payload = method_not_allowed)
  \/ (code = 429%Z /\ payload = rate_limit_exceeded)
  \/ (code = 500%Z /\ payload = internal_server_error).
Proof.
  run_all; intros H; which_event H; auto 6.
Qed.

(** X2: when the rate limiter itself fails (its call rejects), the request is
    not let through: the handler answers 500 and makes no relay call and
    no record write. *)
Theorem limiter_failure_is_500 (tok : DecodedIdToken) (e : JsError)
    (st : RateState) :
  method req = "POST" ->
  admin_verifyIdToken E (bearer_token (authorization (headers req))) = Ok tok ->
  limit E (rate w) (uid tok) = (Throw e, st) ->
  responses (events (handler E req w)) = [(500%Z, internal_server_error)]
  /\ count is_relay (events (handler E req w)) = 0
  /\ count is_record (events (handler E req w)) = 0
  /\ chats (final (handler E req w)) = chats w.
Proof.
  intros Hm Hv Hl. erewrite handler_limiter_error by eassumption.
  repeat split.
Qed.

(** X3: the upstream is called only for a POST request that passed
    verification and to which the rate limiter answered [success = true];
    the call goes to the configured URL and carries the message of the
    body and the verified subject. *)
Theorem relay_only_when_granted (url : string) (init : FetchInit) :
  In (EvFetch url init) (events (handler E req w)) ->
  method req = "POST"
  /\ exists tok lr st msg,
       admin_verifyIdToken E (bearer_token (authorization (headers req))) = Ok tok
       /\ limit E (rate w) (uid tok) = (Ok lr, st)
       /\ success lr = true
       /\ destructure (body req) "message" = Ok msg
       /\ url = dify_url
       /\ init = dify_init E msg (uid tok).
Proof.
  destruct (String.eqb_spec (method req) "POST") as [Hm | Hm].
  - pose proof (is_post Hm) as Hp.
    run_all; intros H; which_event H;
      (split; [first [assumption | reflexivity]
              | do 4 eexists; repeat split;
                first [eassumption | reflexivity
                      | apply negb_false_iff; eassumption]]).
  - rewrite handler_non_post by assumption. intros H. which_event H.
Qed.

(** X4: whenever the record step runs, the document goes to the collection
    [chats], names the verified subject, holds the message of the request
    body and, as [response], the [answer] of the very data that is then
    sent back with status 200. *)
Theorem record_matches_response (coll : string) (doc : ChatDoc) :
  In (EvAddDoc coll doc) (events (handler E req w)) ->
  coll = "chats"
  /\ exists tok data,
       admin_verifyIdToken E (bearer_token (authorization (headers req))) = Ok tok
       /\ userId doc = JStr (uid tok)
       /\ destructure (body req) "message" = Ok (message doc)
       /\ get_prop data "answer" = Ok (response doc)
       /\ responses (events (handler E req w)) = [(200%Z, data)].
Proof.
  destruct (String.eqb_spec (method req) "POST") as [Hm | Hm].
  - pose proof (is_post Hm) as Hp.
    unfold_pipeline; cbn; rewrite Hp; cbn.
    repeat (branch; known); intros H; which_event H;
      (split; [reflexivity
              | do 2 eexists; repeat split; first [eassumption | reflexivity]]).
  - rewrite handler_non_post by assumption. intros H. which_event H.
Qed.

(** X5: the answer is 200 exactly when the record step ran, and then it ran
    once: no 200 is sent without an attempt to store the exchange, and no
    attempt is followed by an error answer. *)
Theorem ok_iff_record_step :
  (exists data, responses (events (handler E req w)) = [(200%Z, data)])
  <-> count is_record (events (handler E req w)) = 1.
Proof.
  run_all;
    (split;
     [ intros [data H]; first [discriminate H | reflexivity]
     | intros H; first [discriminate H | eexists; reflexivity] ]).
Qed.

(** X6: the HTTP status of the upstream response plays no part: with any
    other status and the same content, the handler does the same calls,
    leaves the same stores and sends the same answer. *)
Theorem upstream_status_ignored (f : Z -> Z) :
  handler (with_status f E) req w = handler E req w.
Proof.
  unfold with_status. unfold_pipeline. unfold dify_init, dify_authorization.
  cbn. repeat (branch; known); reflexivity.
Qed.

(** X7: every POST request is handed to the verifier, once and before
    anything else, with the token taken from the header, also when the
    header is absent and the token therefore [undefined]. *)
Theorem post_is_verified_first :
  method req = "POST" ->
  filter is_verify (events (handler E req w))
    = [EvVerify (bearer_token (authorization (headers req)))]
  /\ hd_error (events (handler E req w))
    = Some (EvVerify (bearer_token (authorization (headers req)))).
Proof.
  intros Hm. apply is_post in Hm. run_all; split; reflexivity.
Qed.

(** X8: [saveChatToFirestore] never throws and never touches the rate store.
    When Firestore takes the write, the collection [chats] grows by
    exactly the document of the three arguments and the server timestamp;
    when it refuses, the data is left as it was and the error is logged. *)
Theorem saveChatToFirestore_absorbs_failure (u m a : JsVal) :
  let doc := {| userId := u; message := m; response := a;
                timestamp := serverTimestamp |} in
  let r := saveChatToFirestore E u m a w in
  outcome r = Ok tt
  /\ rate (final r) = rate w
  /\ match addDoc_fault E (chats w) "chats" doc with
     | None =>
         chats (final r) = (chats w ++ [("chats", doc)])%list
         /\ events r = [EvAddDoc "chats" doc]
     | Some e =>
         chats (final r) = chats w
         /\ events r = [EvAddDoc "chats" doc;
                        EvLog "Error saving chat to Firestore:" e]
     end.
Proof.
  intros doc r. subst doc r. run_all; repeat split.
Qed.

End Endpoint.

(** ** The bearer token *)

Lemma append_empty (s : string) : s ++ "" = s.
Proof.
  induction s as [| c s IH]; cbn; [reflexivity | now rewrite IH].
Qed.

Lemma append_assoc (a b c : string) : (a ++ b) ++ c = a ++ (b ++ c).
Proof.
  induction a as [| x a IH]; cbn; [reflexivity | now rewrite IH].
Qed.

(** A string in which the separator does not occur is one piece. *)
Lemma split_go_one_piece (sep t cur : string) :
  occurs sep t = false -> split_go sep t 0 cur = [cur ++ t].
Proof.
  revert cur. induction t as [| c t IH]; intros cur H.
  - cbn. now rewrite append_empty.
  - change (occurs sep (String c t))
      with (String.prefix sep (String c t) || occurs sep t) in H.
    apply orb_false_iff in H. destruct H as [Hp Ho].
    change (split_go sep (String c t) 0 cur)
      with (if String.prefix sep (String c t)
            then cur :: split_go sep t (String.length sep - 1) ""
            else split_go sep t 0 (cur ++ String c "")).
    rewrite Hp, IH, append_assoc by exact Ho. reflexivity.
Qed.

(** An occurrence of the separator ends the piece being collected. *)
Lemma split_go_bearer (t cur : string) :
  split_go "Bearer " ("Bearer " ++ t) 0 cur = cur :: split_go "Bearer " t 0 "".
Proof.
  destruct t; reflexivity.
Qed.

Lemma prefix_other_head (a c : ascii) (s1 s2 : string) :
  a <> c -> String.prefix (String a s1) (String c s2) = false.
Proof.
  intros Hne. simpl. destruct (ascii_dec a c); [contradiction | reflexivity].
Qed.

(** Characters other than [B] cannot start the separator. *)
Lemma split_go_skips (p rest cur : string) :
  has_char "B" p = false ->
  split_go "Bearer " (p ++ rest) 0 cur = split_go "Bearer " rest 0 (cur ++ p).
Proof.
  revert cur. induction p as [| c p IH]; intros cur H.
  - cbn. now rewrite append_empty.
  - change (has_char "B" (String c p))
      with (Ascii.eqb "B" c || has_char "B" p) in H.
    apply orb_false_iff in H. destruct H as [Hc Hp].
    change (split_go "Bearer " (String c p ++ rest) 0 cur)
      with (if String.prefix "Bearer " (String c (p ++ rest))
            then cur :: split_go "Bearer " (p ++ rest) 6 ""
            else split_go "Bearer " (p ++ rest) 0 (cur ++ String c "")).
    assert (Hno : String.prefix "Bearer " (String c (p ++ rest)) = false).
    { apply prefix_other_head, Ascii.eqb_neq, Hc. }
    rewrite Hno, IH, append_assoc by exact Hp. reflexivity.
Qed.

(** X9: the header the chat page builds for an ID token, [Bearer ] followed
    by the token, is read back by the handler as that token, provided
    [Bearer ] does not occur inside the token (an ID token has no
    space). *)
Theorem token_round_trip (B : ChatInterface.Browser) (idToken msg value : string) :
  occurs "Bearer " idToken = false ->
  In ("Authorization", value)
     (init_headers (ChatInterface.chat_init B idToken msg)) ->
  bearer_token (Some value) = Some idToken.
Proof.
  intros Hocc Hin.
  unfold ChatInterface.chat_init in Hin. cbn [init_headers In] in Hin.
  destruct Hin as [Hin | [Hin | []]]; [discriminate Hin |].
  assert (Hv : value = "Bearer " ++ idToken) by congruence.
  rewrite Hv. unfold bearer_token, split.
  rewrite split_go_bearer, split_go_one_piece by exact Hocc. reflexivity.
Qed.

(** X10: a header in which [Bearer ] does not occur as written, capital B and
    one space, gives no token at all: the verifier is then called with
    [undefined]. *)
Theorem other_scheme_gives_no_token (value : string) :
  occurs "Bearer " value = false ->
  bearer_token (Some value) = None.
Proof.
  intros Hocc. unfold bearer_token, split.
  rewrite split_go_one_piece by exact Hocc. reflexivity.
Qed.

(** X11: the scheme is looked for anywhere in the header: what stands before
    the first [Bearer ] is dropped, and the token ends where [Bearer ]
    occurs again. *)
Theorem token_is_between_schemes (before token after : string) :
  has_char "B" before = false ->
  has_char "B" token = false ->
  bearer_token (Some (before ++ "Bearer " ++ token ++ "Bearer " ++ after))
  = Some token.
Proof.
  intros Hb Ht. unfold bearer_token, split.
  rewrite split_go_skips, split_go_bearer by exact Hb.
  rewrite split_go_skips, split_go_bearer by exact Ht.
  reflexivity.
Qed.

(** ** The private key of the service account *)

Lemma replace_escaped_newlines_head (s : string) (c : ascii) (r : string) :
  replace_escaped_newlines s = String c r ->
  c = line_feed \/ exists r', s = String c r'.
Proof.
  destruct s as [| x [| y s]]; intros H.
  - discriminate H.
  - cbn in H. right. exists "". congruence.
  - change (replace_escaped_newlines (String x (String y s)))
      with (if Ascii.eqb x backslash && Ascii.eqb y "n"
            then String line_feed (replace_escaped_newlines s)
            else String x (replace_escaped_newlines (String y s))) in H.
    destruct (Ascii.eqb x backslash && Ascii.eqb y "n").
    + left. congruence.
    + right. exists (String y s). congruence.
Qed.

Lemma string_ind2 (P : string -> Prop) :
  P "" ->
  (forall c, P (String c "")) ->
  (forall c d s, P s -> P (String d s) -> P (String c (String d s))) ->
  forall s, P s.
Proof.
  intros H0 H1 H2.
  assert (H : forall s, P s /\ forall c, P (String c s)).
  { induction s as [| d s [IHs IHc]]; split; auto. }
  intros s. apply H.
Qed.

(** An escaped newline is replaced where it stands: what is before it
    and what is after it are treated on their own. *)
Lemma replace_escaped_newlines_at (a b : string) :
  replace_escaped_newlines (a ++ String backslash (String "n" b))
  = replace_escaped_newlines a ++ String line_feed (replace_escaped_newlines b).
Proof.
  induction a as [| c | c d s IHs IHd] using string_ind2.
  - reflexivity.
  - change (replace_escaped_newlines
              (String c "" ++ String backslash (String "n" b)))
      with (if Ascii.eqb c backslash && Ascii.eqb backslash "n"
            then String line_feed (replace_escaped_newlines (String "n" b))
            else String c (replace_escaped_newlines
                             (String backslash (String "n" b)))).
    replace (Ascii.eqb backslash "n") with false by reflexivity.
    rewrite andb_false_r. reflexivity.
  - change (replace_escaped_newlines
              (String c (String d s) ++ String backslash (String "n" b)))
      with (if Ascii.eqb c backslash && Ascii.eqb d "n"
            then String line_feed
                   (replace_escaped_newlines
                      (s ++ String backslash (String "n" b)))
            else String c
                   (replace_escaped_newlines
                      (String d s ++ String backslash (String "n" b)))).
    change (replace_escaped_newlines (String c (String d s)))
      with (if Ascii.eqb c backslash && Ascii.eqb d "n"
            then String line_feed (replace_escaped_newlines s)
            else String c (replace_escaped_newlines (String d s))).
    destruct (Ascii.eqb c backslash && Ascii.eqb d "n").
    + rewrite IHs. reflexivity.
    + rewrite IHd. reflexivity.
Qed.

(** X12: every escaped newline of the variable becomes one line feed in the
    key: where the variable is [a], a backslash, the letter n and [b], the
    key is the key of [a], a line feed and the key of [b].  After the
    replacement no backslash is directly followed by the letter n, so
    replacing does not produce new escaped newlines. *)
Theorem privateKey_has_no_escaped_newline (variable key : string) :
  privateKey (Some variable) = Ok key ->
  escaped_newline_in key = false
  /\ forall a b,
       variable = a ++ String backslash (String "n" b) ->
       exists key_a key_b,
         privateKey (Some a) = Ok key_a
         /\ privateKey (Some b) = Ok key_b
         /\ key = key_a ++ String line_feed key_b.
Proof.
  intros H. injection H as <-. split.
  2: { intros a b ->. do 2 eexists. split; [reflexivity |].
       split; [reflexivity |]. apply replace_escaped_newlines_at. }
  induction variable as [| c | c d s IHs IHd] using string_ind2.
  - reflexivity.
  - reflexivity.
  - change (replace_escaped_newlines (String c (String d s)))
      with (if Ascii.eqb c backslash && Ascii.eqb d "n"
            then String line_feed (replace_escaped_newlines s)
            else String c (replace_escaped_newlines (String d s))).
    destruct (Ascii.eqb c backslash && Ascii.eqb d "n") eqn:Hpair.
    + destruct (replace_escaped_newlines s) as [| x r] eqn:Hr;
        [reflexivity |].
      change (escaped_newline_in (String line_feed (String x r)))
        with ((Ascii.eqb line_feed backslash && Ascii.eqb x "n")
              || escaped_newline_in (String x r)).
      rewrite IHs. reflexivity.
    + destruct (replace_escaped_newlines (String d s)) as [| x r] eqn:Hr;
        [reflexivity |].
      change (escaped_newline_in (String c (String x r)))
        with ((Ascii.eqb c backslash && Ascii.eqb x "n")
              || escaped_newline_in (String x r)).
      rewrite IHd, orb_false_r.
      destruct (replace_escaped_newlines_head _ Hr) as [-> | [r' Hd]].
      * now rewrite andb_false_r.
      * injection Hd as <- _. exact Hpair.
Qed.

(** X13: a key that holds no escaped newline, one that was stored with real
    line feeds for instance, is handed on unchanged. *)
Theorem privateKey_keeps_plain_key (variable : string) :
  escaped_newline_in variable = false ->
  privateKey (Some variable) = Ok variable.
Proof.
  intros H. unfold privateKey. f_equal.
  induction variable as [| c rest IH]; [reflexivity |].
  destruct rest as [| d rest']; [reflexivity |].
  change (escaped_newline_in (String c (String d rest')))
    with ((Ascii.eqb c backslash && Ascii.eqb d "n")
          || escaped_newline_in (String d rest')) in H.
  apply orb_false_iff in H. destruct H as [Hpair Hrest].
  change (replace_escaped_newlines (String c (String d rest')))
    with (if Ascii.eqb c backslash && Ascii.eqb d "n"
          then String line_feed (replace_escaped_newlines rest')
          else String c (replace_escaped_newlines (String d rest'))).
  rewrite Hpair, (IH Hrest). reflexivity.
Qed.

(** ** The chat page *)

Module ChatInterfaceFacts.
Import ChatInterface.

Lemma trimStart_blank (s : string) : blank s = true -> trimStart s = "".
Proof.
  induction s as [| c s IH]; cbn [blank trimStart]; [reflexivity |].
  intros H. apply andb_true_iff in H. destruct H as [Hc Hs].
  rewrite Hc. exact (IH Hs).
Qed.

Lemma trimStart_not_blank (s : string) :
  blank s = false ->
  exists c r, trimStart s = String c r /\ is_white_space c = false.
Proof.
  induction s as [| c s IH]; cbn [blank trimStart]; [discriminate |].
  intros H. destruct (is_white_space c) eqn:Hc.
  - apply IH. exact H.
  - exists c, s. split; [reflexivity | exact Hc].
Qed.

Lemma trimEnd_keeps_head (c : ascii) (r : string) :
  is_white_space c = false -> not_string (trimEnd (String c r)) = false.
Proof.
  intros Hc. cbn [trimEnd]. destruct (trimEnd r); [rewrite Hc |]; reflexivity.
Qed.

(** [!message.trim()] holds exactly for a message of white space only. *)
Lemma not_trim_iff_blank (s : string) : not_string (trim s) = blank s.
Proof.
  unfold trim. destruct (blank s) eqn:Hb.
  - rewrite trimStart_blank by exact Hb. reflexivity.
  - destruct (trimStart_not_blank s Hb) as [c [r [-> Hc]]].
    apply trimEnd_keeps_head, Hc.
Qed.

Ltac unfold_component :=
  unfold sendMessage, user_getIdToken, try_catch, bind, emit, lift, ret.

Section Send.

Variable B : Browser.
Variable message : string.
Variable chatHistory : list ChatEntry.

Local Abbreviation newMessage := {| role := "user"; content := JStr message |}.

(** The two state changes every send starts with. *)
Local Abbreviation shown :=
  [UiSetChatHistory (chatHistory ++ [newMessage])%list; UiSetMessage ""].

Hypothesis Hmessage : blank message = false.

Lemma sendMessage_signed_out :
  user B = None ->
  sendMessage B message chatHistory =
    (Ok tt,
     (shown ++
      [UiLog "Error sending message:"
         (TypeError "Cannot read properties of null (reading 'getIdToken')")])%list).
Proof.
  intros Hu. unfold_component. rewrite not_trim_iff_blank, Hmessage, Hu.
  reflexivity.
Qed.

Variable u : User.
Hypothesis Huser : user B = Some u.

Lemma sendMessage_no_token (e : JsError) :
  getIdToken u = Throw e ->
  sendMessage B message chatHistory =
    (Ok tt, (shown ++ [UiGetIdToken; UiLog "Error sending message:" e])%list).
Proof.
  intros Ht. unfold_component. rewrite not_trim_iff_blank, Hmessage, Huser, Ht.
  reflexivity.
Qed.

Variable idToken : string.
Hypothesis Htoken : getIdToken u = Ok idToken.

Local Abbreviation init := (chat_init B idToken message).

Lemma sendMessage_fetch_rejected (e : JsError) :
  fetch B "/api/chat" init = Throw e ->
  sendMessage B message chatHistory =
    (Ok tt,
     (shown ++ [UiGetIdToken; UiFetch "/api/chat" init;
                UiLog "Error sending message:" e])%list).
Proof.
  intros Hf. unfold_component.
  rewrite not_trim_iff_blank, Hmessage, Huser, Htoken. cbn. rewrite Hf.
  reflexivity.
Qed.

Variable response : FetchResponse.
Hypothesis Hfetch : fetch B "/api/chat" init = Ok response.

Lemma sendMessage_unparsable (e : JsError) :
  json response = Throw e ->
  sendMessage B message chatHistory =
    (Ok tt,
     (shown ++ [UiGetIdToken; UiFetch "/api/chat" init; UiJson;
                UiLog "Error sending message:" e])%list).
Proof.
  intros Hj. unfold_component.
  rewrite not_trim_iff_blank, Hmessage, Huser, Htoken. cbn. rewrite Hfetch.
  cbn. rewrite Hj. reflexivity.
Qed.

Lemma sendMessage_answered (data : JsVal) :
  json response = Ok data ->
  sendMessage B message chatHistory =
    (Ok tt,
     (shown ++ [UiGetIdToken; UiFetch "/api/chat" init; UiJson;
                UiUpdateChatHistory (append_answer data)])%list).
Proof.
  intros Hj. unfold_component.
  rewrite not_trim_iff_blank, Hmessage, Huser, Htoken. cbn. rewrite Hfetch.
  cbn. rewrite Hj. reflexivity.
Qed.

End Send.

Section Page.

Variable B : Browser.
Variable message : string.
Variable chatHistory : list ChatEntry.

(** X14: a message of white space only, the empty one included, is not sent:
    [sendMessage] returns without a state change and without a request. *)
Theorem blank_message_is_not_sent :
  blank message = true ->
  sendMessage B message chatHistory = (Ok tt, []).
Proof.
  intros Hb. unfold sendMessage. rewrite not_trim_iff_blank, Hb. reflexivity.
Qed.

(** X15: a message that is not blank is put into the history shown, after the
    entries of the render that created [sendMessage], and the input is
    cleared, before and whatever the exchange with the server gives;
    [sendMessage] itself never throws and makes at most one request. *)
Theorem message_is_shown_at_once :
  blank message = false ->
  exists rest,
    sendMessage B message chatHistory =
      (Ok tt,
       UiSetChatHistory
         (chatHistory ++ [{| role := "user"; content := JStr message |}])%list
       :: UiSetMessage "" :: rest)
    /\ List.length (filter is_ui_fetch rest) <= 1.
Proof.
  intros Hb.
  destruct (user B) as [u |] eqn:Hu.
  - destruct (getIdToken u) as [idToken | e] eqn:Ht.
    + destruct (fetch B "/api/chat" (chat_init B idToken message))
        as [response | e] eqn:Hf.
      * destruct (json response) as [data | e] eqn:Hj.
        -- erewrite sendMessage_answered by eassumption.
           eexists. split; [reflexivity | cbn; auto].
        -- erewrite sendMessage_unparsable by eassumption.
           eexists. split; [reflexivity | cbn; auto].
      * erewrite sendMessage_fetch_rejected by eassumption.
        eexists. split; [reflexivity | cbn; auto].
    + erewrite sendMessage_no_token by eassumption.
      eexists. split; [reflexivity | cbn; auto].
  - erewrite sendMessage_signed_out by eassumption.
    eexists. split; [reflexivity | cbn; auto].
Qed.

(** X16: when the exchange fails, because nobody is signed in, the ID token
    cannot be had, the request fails or the answer is not JSON, the error
    is logged once and that is all: the history keeps the message of the
    user and gets no entry for the assistant. *)
Theorem failed_send_keeps_user_message (s : UiState) :
  blank message = false ->
  user B = None
  \/ (exists u e, user B = Some u /\ getIdToken u = Throw e)
  \/ (exists u idToken e,
        user B = Some u /\ getIdToken u = Ok idToken
        /\ fetch B "/api/chat" (chat_init B idToken message) = Throw e)
  \/ (exists u idToken response e,
        user B = Some u /\ getIdToken u = Ok idToken
        /\ fetch B "/api/chat" (chat_init B idToken message) = Ok response
        /\ json response = Throw e) ->
  apply_all s (snd (sendMessage B message chatHistory))
    = Ok {| ChatInterface.message := "";
            ChatInterface.chatHistory :=
              (chatHistory ++ [{| role := "user"; content := JStr message |}])%list |}
  /\ List.length (filter is_ui_log (snd (sendMessage B message chatHistory))) = 1.
Proof.
  intros Hb [Hu | [(u & e & Hu & Ht) | [(u & t & e & Hu & Ht & Hf)
                                      | (u & t & r & e & Hu & Ht & Hf & Hj)]]].
  - erewrite sendMessage_signed_out by eassumption. split; reflexivity.
  - erewrite sendMessage_no_token by eassumption. split; reflexivity.
  - erewrite sendMessage_fetch_rejected by eassumption. split; reflexivity.
  - erewrite sendMessage_unparsable by eassumption. split; reflexivity.
Qed.

(** X17: when the server answers with JSON, the state changes of the send,
    applied in order to any state [s] of the component, leave as history
    the entries of the render that created [sendMessage], the message of
    the user and an entry of the assistant with the [answer] of the data.
    The HTTP status of the answer plays no part, and what [s] held as
    history is replaced. *)
Theorem answer_is_appended (s : UiState) (u : User) (idToken : string)
    (response : FetchResponse) (data answer : JsVal) :
  blank message = false ->
  user B = Some u ->
  getIdToken u = Ok idToken ->
  fetch B "/api/chat" (chat_init B idToken message) = Ok response ->
  json response = Ok data ->
  get_prop data "answer" = Ok answer ->
  apply_all s (snd (sendMessage B message chatHistory))
    = Ok {| ChatInterface.message := "";
            ChatInterface.chatHistory :=
              (chatHistory ++
               [{| role := "user"; content := JStr message |};
                {| role := "assistant"; content := answer |}])%list |}.
Proof.
  intros Hb Hu Ht Hf Hj Ha.
  erewrite sendMessage_answered by eassumption.
  cbn. unfold append_answer. rewrite Ha, <- app_assoc. reflexivity.
Qed.

End Page.

End ChatInterfaceFacts.

(** ** The page and the endpoint together *)

(** X18: an answer of the handler other than 200 has no [answer], and the chat
    page does not look at the status: when the request of the page is
    refused (405, 429 or 500), the page shows an entry of the assistant
    whose content is [undefined] and logs nothing. *)
Theorem refusal_is_shown_as_empty_answer (RateState : Type)
    (E : Env RateState) (req : Request) (w : World RateState)
    (code : Z) (payload : JsVal)
    (B : ChatInterface.Browser) (text : string)
    (history : list ChatInterface.ChatEntry) (s : ChatInterface.UiState)
    (u : ChatInterface.User) (idToken : string) :
  In (code, payload) (responses (events (handler E req w))) ->
  code <> 200%Z ->
  ChatInterface.blank text = false ->
  ChatInterface.user B = Some u ->
  ChatInterface.getIdToken u = Ok idToken ->
  ChatInterface.fetch B "/api/chat" (ChatInterface.chat_init B idToken text)
    = Ok {| status := code; json := Ok payload |} ->
  ChatInterface.apply_all s (snd (ChatInterface.sendMessage B text history))
    = Ok {| ChatInterface.message := "";
            ChatInterface.chatHistory :=
              (history ++
               [{| ChatInterface.role := "user";
                   ChatInterface.content := JStr text |};
                {| ChatInterface.role := "assistant";
                   ChatInterface.content := JUndefined |}])%list |}
  /\ filter ChatInterface.is_ui_log
       (snd (ChatInterface.sendMessage B text history)) = [].
Proof.
  intros Hin Hcode Hb Hu Ht Hf.
  assert (Ha : get_prop payload "answer" = Ok JUndefined).
  { revert Hin. run_all; intros H; which_event H;
      first [reflexivity | exfalso; apply Hcode; reflexivity]. }
  erewrite ChatInterfaceFacts.sendMessage_answered
    by first [eassumption | reflexivity].
  cbn. unfold ChatInterface.append_answer. rewrite Ha, <- app_assoc.
  split; reflexivity.
Qed.

(** ** Further concrete executions *)

Lemma response_is_one_of_four_witness :
  429%Z = 200%Z
  \/ (429%Z = 405%Z /\ rate_limit_exceeded = method_not_allowed)
  \/ (429%Z = 429%Z /\ rate_limit_exceeded = rate_limit_exceeded)
  \/ (429%Z = 500%Z /\ rate_limit_exceeded = internal_server_error).
Proof.
  apply (@response_is_one_of_four _ Stub.healthy Stub.good_hello Stub.spent).
  left. reflexivity.
Defined.

Lemma limiter_failure_is_500_witness :
  responses (events (handler StubPage.limiter_down Stub.good_hello Stub.fresh))
  = [(500%Z, internal_server_error)].
Proof.
  refine (proj1 (@limiter_failure_is_500 _ StubPage.limiter_down Stub.good_hello
                   Stub.fresh Stub.u1 (Rejected "redis unreachable")
                   (rate Stub.fresh) _ _ _)); reflexivity.
Defined.

Lemma relay_only_when_granted_witness : method Stub.good_hello = "POST".
Proof.
  refine (proj1 (@relay_only_when_granted _ Stub.healthy Stub.good_hello
                   Stub.fresh dify_url
                   (dify_init Stub.healthy (JStr "hello") "u1") _)).
  do 2 right. left. reflexivity.
Defined.

Lemma record_matches_response_witness : "chats" = "chats".
Proof.
  refine (proj1 (@record_matches_response _ Stub.firestore_down Stub.good_hello
                   Stub.fresh "chats"
                   {| userId := JStr "u1"; message := JStr "hello";
                      response := JStr "hi"; timestamp := serverTimestamp |} _)).
  do 4 right. left. reflexivity.
Defined.

Lemma ok_iff_record_step_witness :
  count is_record (events (handler Stub.healthy Stub.good_hello Stub.fresh)) = 1.
Proof.
  apply (proj1 (@ok_iff_record_step _ Stub.healthy Stub.good_hello Stub.fresh)).
  exists Stub.hi. reflexivity.
Defined.

Lemma post_is_verified_first_witness :
  hd_error (events (handler Stub.healthy (Stub.post None Stub.hello) Stub.fresh))
  = Some (EvVerify None).
Proof.
  refine (proj2 (@post_is_verified_first _ Stub.healthy (Stub.post None Stub.hello)
                   Stub.fresh _)); reflexivity.
Defined.

Lemma token_round_trip_witness : bearer_token (Some "Bearer good") = Some "good".
Proof.
  apply (@token_round_trip
           (StubPage.browser (Some StubPage.signed_in) Stub.unreachable)
           "good" "hello" "Bearer good").
  - reflexivity.
  - right. left. reflexivity.
Defined.

Lemma other_scheme_gives_no_token_witness :
  bearer_token (Some "bearer good") = None.
Proof.
  apply other_scheme_gives_no_token. reflexivity.
Defined.

Lemma token_is_between_schemes_witness :
  bearer_token (Some "basic abc, Bearer good Bearer other") = Some "good ".
Proof.
  apply (@token_is_between_schemes "basic abc, " "good " "other"); reflexivity.
Defined.

Lemma privateKey_has_no_escaped_newline_witness :
  escaped_newline_in
    (String "a" (String line_feed (String "\" (String line_feed "b")))) = false
  /\ exists key_a key_b,
       privateKey (Some "a") = Ok key_a
       /\ privateKey (Some "\\nb") = Ok key_b
       /\ String "a" (String line_feed (String "\" (String line_feed "b")))
          = key_a ++ String line_feed key_b.
Proof.
  destruct (@privateKey_has_no_escaped_newline "a\n\\nb"
              (String "a" (String line_feed (String "\" (String line_feed "b"))))
              eq_refl) as [Hnone Hat].
  split; [exact Hnone |].
  exact (Hat "a" "\\nb" eq_refl).
Defined.

Lemma privateKey_keeps_plain_key_witness :
  privateKey (Some "n\ key") = Ok "n\ key".
Proof.
  apply privateKey_keeps_plain_key. reflexivity.
Defined.

Lemma blank_message_is_not_sent_witness :
  ChatInterface.sendMessage
    (StubPage.browser (Some StubPage.signed_in) (Stub.upstream 200 (Ok Stub.hi)))
    "   " StubPage.earlier
  = (Ok tt, []).
Proof.
  apply ChatInterfaceFacts.blank_message_is_not_sent. reflexivity.
Defined.

Lemma message_is_shown_at_once_witness :
  exists rest,
    ChatInterface.sendMessage
      (StubPage.browser None Stub.unreachable) "hello" StubPage.earlier
    = (Ok tt,
       ChatInterface.UiSetChatHistory
         (StubPage.earlier ++
          [{| ChatInterface.role := "user";
              ChatInterface.content := JStr "hello" |}])%list
       :: ChatInterface.UiSetMessage "" :: rest)
    /\ List.length (filter ChatInterface.is_ui_fetch rest) <= 1.
Proof.
  apply ChatInterfaceFacts.message_is_shown_at_once. reflexivity.
Defined.

Lemma failed_send_keeps_user_message_witness :
  List.length
    (filter ChatInterface.is_ui_log
       (snd (ChatInterface.sendMessage
               (StubPage.browser (Some StubPage.signed_in) Stub.unreachable)
               "hello" StubPage.earlier))) = 1.
Proof.
  refine (proj2 (@ChatInterfaceFacts.failed_send_keeps_user_message
                   (StubPage.browser (Some StubPage.signed_in) Stub.unreachable)
                   "hello" StubPage.earlier StubPage.typing _ _)).
  - reflexivity.
  - right. right. left.
    exists StubPage.signed_in, "good", (Rejected "fetch failed").
    repeat split.
Defined.

Lemma answer_is_appended_witness :
  ChatInterface.apply_all StubPage.typing
    (snd (ChatInterface.sendMessage
            (StubPage.browser (Some StubPage.signed_in)
               (Stub.upstream 200 (Ok Stub.hi)))
            "hello" []))
  = Ok {| ChatInterface.message := "";
          ChatInterface.chatHistory :=
            [{| ChatInterface.role := "user";
                ChatInterface.content := JStr "hello" |};
             {| ChatInterface.role := "assistant";
                ChatInterface.content := JStr "hi" |}] |}.
Proof.
  refine (@ChatInterfaceFacts.answer_is_appended
            (StubPage.browser (Some StubPage.signed_in)
               (Stub.upstream 200 (Ok Stub.hi)))
            "hello" [] StubPage.typing StubPage.signed_in "good"
            {| status := 200; json := Ok Stub.hi |} Stub.hi (JStr "hi")
            _ _ _ _ _ _); reflexivity.
Defined.

Lemma refusal_is_shown_as_empty_answer_witness :
  filter ChatInterface.is_ui_log
    (snd (ChatInterface.sendMessage
            (StubPage.browser (Some StubPage.signed_in)
               (Stub.upstream 429 (Ok rate_limit_exceeded)))
            "hello" StubPage.earlier)) = [].
Proof.
  refine (proj2 (@refusal_is_shown_as_empty_answer _ Stub.healthy Stub.good_hello
                   Stub.spent 429%Z rate_limit_exceeded
                   (StubPage.browser (Some StubPage.signed_in)
                      (Stub.upstream 429 (Ok rate_limit_exceeded)))
                   "hello" StubPage.earlier StubPage.typing
                   StubPage.signed_in "good" _ _ _ _ _ _));
    try reflexivity.
  - left. reflexivity.
  - discriminate.
Defined.
